(** * NPS parks collector: a shallow embedding of [nps_parks_collector.py]

    The script is a three-step pipeline: fetch the park records from the
    NPS API, flatten five fields of every record into a table, write the
    table to a spreadsheet.  This file embeds the script function by
    function and proves the properties its specification lists.

    - Python values are the JSON values the API can return.
    - A call that can raise returns a [result]; console output and the
      calls to external services are recorded, in order, in a trace.
    - The external services (Colab authentication, the HTTP endpoint,
      the spreadsheet) answer as a [world] record tells. *)

From stdpp Require Import gmap strings list fin_maps.
From Stdlib Require Import ZArith Lia.

Open Scope Z_scope.

(** ** Python values *)

(** What [response.json()] can contain.  A float is kept as the bit
    pattern of its IEEE-754 double.  A dict read by key is a finite map. *)
#[warnings="-register-all"]
Inductive value : Type :=
| VNone
| VBool (b : bool)
| VInt (z : Z)
| VFloat (bits : Z)
| VStr (s : string)
| VList (l : list value)
| VDict (d : gmap string value).

(** [float('nan')], which pandas puts where a row has no value for a column. *)
Definition nan : value := VFloat 0x7FF8000000000000.

(** [type(v).__name__] *)
Definition type_name (v : value) : string :=
  match v with
  | VNone => "NoneType"
  | VBool _ => "bool"
  | VInt _ => "int"
  | VFloat _ => "float"
  | VStr _ => "str"
  | VList _ => "list"
  | VDict _ => "dict"
  end.

Definition is_dict (v : value) : bool :=
  match v with VDict _ => true | _ => false end.

(** ** Exceptions *)

Inductive exn : Type :=
| AttributeError (type attr : string)  (* 'type' object has no attribute 'attr' *)
| TypeError (msg : string)
| RequestException (msg : string)      (* requests.exceptions.RequestException and its subclasses *)
| OtherException (msg : string)        (* any other subclass of Exception *)
| NonException (msg : string).         (* BaseException outside Exception: KeyboardInterrupt, SystemExit *)

(** [isinstance(e, Exception)]: what [except Exception] catches. *)
Definition isinstance_Exception (e : exn) : bool :=
  match e with NonException _ => false | _ => true end.

(** [isinstance(e, requests.exceptions.RequestException)] *)
Definition isinstance_RequestException (e : exn) : bool :=
  match e with RequestException _ => true | _ => false end.

(** A bare [except:] catches everything. *)
Definition bare_except (e : exn) : bool := true.

Inductive result (A : Type) : Type :=
| Ok (a : A)
| Raise (e : exn).
Arguments Ok {A} a.
Arguments Raise {A} e.

(** ** The table *)

(** A [pandas.DataFrame] as the script uses it: the column labels
    ([df.columns.tolist()]) and the rows ([df.values.tolist()]).  The cells
    hold the objects handed to the constructor; the dtype pandas infers for
    a column is not part of the model. *)
Record DataFrame : Type := {
  columns : list string;
  values : list (list value)
}.

(** ** Console output and external calls *)

(** One constructor per [print] statement of the script; the number is the
    source line. *)
Inductive message : Type :=
| MsgAuthenticating                        (* 46 *)
| MsgAuthenticated                         (* 50 *)
| MsgFetching (limit : Z)                  (* 67 *)
| MsgRetrieved (n : Z)                     (* 83 *)
| MsgApiFailed (status : Z)                (* 86 *)
| MsgResponse (text : string)              (* 87 *)
| MsgRequestError (e : exn)                (* 91 *)
| MsgProcessing                            (* 107 *)
| MsgWarning (name : value) (e : exn)      (* 124 *)
| MsgProcessed (n : Z)                     (* 129 *)
| MsgWriting                               (* 148 *)
| MsgWrote (n : Z)                         (* 170 *)
| MsgSheetUrl (url : string)               (* 171 *)
| MsgWriteError (e : exn)                  (* 175 *)
| MsgRule                                  (* 183, 185, 220, 232 *)
| MsgTitle                                 (* 184 *)
| MsgNeedApiKey                            (* 189 *)
| MsgNeedSheetUrl                          (* 193 *)
| MsgAuthFailed (e : exn)                  (* 200 *)
| MsgNoParksData                           (* 207 *)
| MsgNoDataToWrite                         (* 214 *)
| MsgNewlineRule                           (* 218, 227 *)
| MsgPreviewTitle                          (* 219 *)
| MsgPreview (head : DataFrame)            (* 221 *)
| MsgSuccess                               (* 229 *)
| MsgFailed.                               (* 231 *)

Inductive event : Type :=
| Print (m : message)
| AuthenticateUser                                    (* auth.authenticate_user() *)
| GoogleAuthDefault                                   (* google.auth.default() *)
| GspreadAuthorize                                    (* gspread.authorize(creds) *)
| HttpGet (url : string) (api_key : string) (limit : Z)   (* requests.get(url, params=...) *)
| OpenByUrl (url : string)                            (* gc.open_by_url(sheet_url) *)
| Sheet1                                              (* spreadsheet.sheet1 *)
| AddWorksheet (title rows cols : string)             (* spreadsheet.add_worksheet(...) *)
| WorksheetClear                                      (* worksheet.clear() *)
| WorksheetUpdate (cell : string) (data : list (list value)).  (* worksheet.update(...) *)

(** The events that reach outside the process: authentication and network. *)
Definition is_external_call (ev : event) : bool :=
  match ev with Print _ => false | _ => true end.

(** ** The monad: a result and the trace produced on the way *)

Definition M (A : Type) : Type := result A * list event.

Definition ret {A} (a : A) : M A := (Ok a, []).

Definition raise {A} (e : exn) : M A := (Raise e, []).

Definition bind {A B} (m : M A) (k : A → M B) : M B :=
  match m with
  | (Ok a, t1) => let '(r, t2) := k a in (r, t1 ++ t2)
  | (Raise e, t1) => (Raise e, t1)
  end.

(** stdpp's monad notations: [x ← m; k] and [m;; k]. *)
#[global] Instance M_ret : MRet M := @ret.
#[global] Instance M_bind : MBind M := λ A B k m, bind m k.

(** One line of output, or one call made. *)
Definition emit (ev : event) : M unit := (Ok tt, [ev]).

(** An external call: the call is made, the world answers. *)
Definition call {A} (ev : event) (answer : result A) : M A := (answer, [ev]).

(** [try: body  except <catches> as e: handler e] *)
Definition try_except {A} (catches : exn → bool) (body : M A) (handler : exn → M A) : M A :=
  match body with
  | (Ok a, t1) => (Ok a, t1)
  | (Raise e, t1) =>
      if catches e then let '(r, t2) := handler e in (r, t1 ++ t2)
      else (Raise e, t1)
  end.

(** ** Python operations on values *)

(** [obj.get(key, default)]: only a dict has the method. *)
Definition py_get (obj : value) (key : string) (default : value) : M value :=
  match obj with
  | VDict d => ret (match d !! key with Some v => v | None => default end)
  | _ => raise (AttributeError (type_name obj) "get")
  end.

(** [len(obj)] *)
Definition py_len (obj : value) : M Z :=
  match obj with
  | VList l => ret (Z.of_nat (length l))
  | VStr s => ret (Z.of_nat (String.length s))
  | VDict d => ret (Z.of_nat (size d))
  | _ => raise (TypeError ("object of type '" +:+ type_name obj +:+ "' has no len()"))
  end.

(** The items [for x in obj] runs through: the elements of a list, the
    characters of a string, the keys of a dict. *)
Definition py_iter (obj : value) : M (list value) :=
  match obj with
  | VList l => ret l
  | VStr s => ret ((λ c, VStr (String c EmptyString)) <$> String.list_ascii_of_string s)
  | VDict d => ret (VStr <$> (map_to_list d).*1)
  | _ => raise (TypeError ("'" +:+ type_name obj +:+ "' object is not iterable"))
  end.

(** ** Data processing (lines 97-131) *)

(** The dict literal of lines 114-120: five [park.get] calls, evaluated in
    source order; the keys keep the order in which they are written. *)
Definition build_park_info (park : value) : M (list (string * value)) :=
  full_name ← py_get park "fullName" (VStr "N/A");
  states ← py_get park "states" (VStr "N/A");
  description ← py_get park "description" (VStr "N/A");
  acres ← py_get park "acres" (VStr "N/A");
  designation ← py_get park "designation" (VStr "N/A");
  mret [("Full Name", full_name);
        ("States", states);
        ("Description", description);
        ("Acres", acres);
        ("Designation", designation)].

(** The [for] loop of lines 111-125.  [processed_data] is the list the
    loop appends to.  The handler of line 124 formats its warning with a
    second [park.get] before it can [continue]. *)
Fixpoint process_loop (parks : list value) (processed_data : list (list (string * value)))
  : M (list (list (string * value))) :=
  match parks with
  | [] => mret processed_data
  | park :: rest =>
      processed_data' ←
        try_except isinstance_Exception
          (park_info ← build_park_info park;
           mret (processed_data ++ [park_info]))
          (λ e,
           name ← py_get park "fullName" (VStr "Unknown");
           emit (Print (MsgWarning name e));;
           mret processed_data);
      process_loop rest processed_data'
  end.

(** [row[key]] in a row dict, [None] when the key is not there. *)
Fixpoint row_lookup (key : string) (row : list (string * value)) : option value :=
  match row with
  | [] => None
  | (k, v) :: row' => if bool_decide (k = key) then Some v else row_lookup key row'
  end.

(** The keys of [row] that [cols] does not have yet, added at the end. *)
Definition add_keys (cols : list string) (row : list (string * value)) : list string :=
  foldl (λ acc k, if bool_decide (k ∈ acc) then acc else acc ++ [k]) cols row.*1.

(** [pd.DataFrame(data)] for a list of row dicts: the columns are the keys
    in the order in which they first appear, every dict gives one row, and
    a key that a dict does not have gives NaN.  From the empty list pandas
    builds a frame with no rows and no columns. *)
Definition pd_DataFrame (data : list (list (string * value))) : DataFrame :=
  let cols := foldl add_keys [] data in
  {| columns := cols;
     values := (λ row, (λ c, default nan (row_lookup c row)) <$> cols) <$> data |}.

(** [len(df)]: the number of rows. *)
Definition df_len (df : DataFrame) : Z := Z.of_nat (length (values df)).

(** [df.empty]: some axis has length 0. *)
Definition df_empty (df : DataFrame) : bool :=
  bool_decide (columns df = []) || bool_decide (values df = []).

(** [df.head()]: the first five rows. *)
Definition df_head (df : DataFrame) : DataFrame :=
  {| columns := columns df; values := take 5 (values df) |}.

Definition process_parks_data (parks : value) : M DataFrame :=
  emit (Print MsgProcessing);;
  items ← py_iter parks;
  processed_data ← process_loop items [];
  let df := pd_DataFrame processed_data in
  emit (Print (MsgProcessed (df_len df)));;
  mret df.

(** ** The specification's FieldSpec *)

(** Follows the specification, not the source: the fixed ordered list of
    (output column name, source field key, default value) triples. *)
Definition FieldSpec : list (string * string * value) :=
  [("Full Name", "fullName", VStr "N/A");
   ("States", "states", VStr "N/A");
   ("Description", "description", VStr "N/A");
   ("Acres", "acres", VStr "N/A");
   ("Designation", "designation", VStr "N/A")].

Definition output_names : list string := (λ f, f.1.1) <$> FieldSpec.

(** The specification's row of one record: per entry, the record's value
    for the source key, or the entry's default. *)
Definition normalize_row (d : gmap string value) : list (string * value) :=
  (λ f, (f.1.1, default f.2 (d !! f.1.2))) <$> FieldSpec.

(** ** Configuration and constants (lines 29-39) *)

Record config : Type := {
  API_KEY : string;
  SHEET_URL : string
}.

(** The two variables as the script ships them. *)
Definition shipped_config : config :=
  {| API_KEY := "YOUR_API_KEY_HERE"; SHEET_URL := "YOUR_SHEET_URL_HERE" |}.

Definition NPS_API_BASE_URL : string := "https://developer.nps.gov/api/v1/parks".
Definition MAX_PARKS : Z := 50.

(** ** The external services *)

(** What the script reads of a [requests] response. *)
Record response : Type := {
  status_code : Z;
  text : string;
  json : result value        (* response.json() *)
}.

(** How each external call of one run answers. *)
Record world : Type := {
  authenticate_user : result unit;
  google_auth_default : result unit;
  gspread_authorize : result unit;
  requests_get : result response;
  open_by_url : result unit;
  sheet1 : result unit;
  add_worksheet : result unit;
  worksheet_clear : result unit;
  worksheet_update : result unit
}.

(** ** Google authentication (lines 44-51) *)

Definition authenticate_google (w : world) : M unit :=
  emit (Print MsgAuthenticating);;
  call AuthenticateUser (authenticate_user w);;
  call GoogleAuthDefault (google_auth_default w);;
  gc ← call GspreadAuthorize (gspread_authorize w);
  emit (Print MsgAuthenticated);;
  mret gc.

(** ** NPS API data collection (lines 56-92) *)

(** Returns the list of parks, or [VNone] when the request fails. *)
Definition fetch_parks_data (w : world) (api_key : string) (limit : Z) : M value :=
  emit (Print (MsgFetching limit));;
  try_except isinstance_RequestException
    (response ← call (HttpGet NPS_API_BASE_URL api_key limit) (requests_get w);
     if bool_decide (status_code response = 200) then
       data ← ((json response, []) : M value);
       parks ← py_get data "data" (VList []);
       n ← py_len parks;
       emit (Print (MsgRetrieved n));;
       mret parks
     else
       emit (Print (MsgApiFailed (status_code response)));;
       emit (Print (MsgResponse (text response)));;
       mret VNone)
    (λ e,
     emit (Print (MsgRequestError e));;
     mret VNone).

(** ** Google Sheets export (lines 136-176) *)

Definition write_to_google_sheet (w : world) (gc : unit) (sheet_url : string)
    (dataframe : DataFrame) : M bool :=
  emit (Print MsgWriting);;
  try_except isinstance_Exception
    (call (OpenByUrl sheet_url) (open_by_url w);;
     try_except bare_except
       (call Sheet1 (sheet1 w))
       (λ _, call (AddWorksheet "NPS Parks Data" "100" "20") (add_worksheet w));;
     call WorksheetClear (worksheet_clear w);;
     let data_to_write := (VStr <$> columns dataframe) :: values dataframe in
     call (WorksheetUpdate "A1" data_to_write) (worksheet_update w);;
     emit (Print (MsgWrote (df_len dataframe)));;
     emit (Print (MsgSheetUrl sheet_url));;
     mret true)
    (λ e,
     emit (Print (MsgWriteError e));;
     mret false).

(** ** Main execution (lines 181-232) *)

(** [parks_data is None or len(parks_data) == 0] *)
Definition none_or_empty (parks_data : value) : M bool :=
  match parks_data with
  | VNone => mret true
  | _ => n ← py_len parks_data; mret (bool_decide (n = 0))
  end.

Definition main (cfg : config) (w : world) : M unit :=
  emit (Print MsgRule);;
  emit (Print MsgTitle);;
  emit (Print MsgRule);;
  if bool_decide (API_KEY cfg = "YOUR_API_KEY_HERE") then
    emit (Print MsgNeedApiKey)
  else if bool_decide (SHEET_URL cfg = "YOUR_SHEET_URL_HERE") then
    emit (Print MsgNeedSheetUrl)
  else
    auth ← try_except isinstance_Exception
              (gc ← authenticate_google w; mret (Some gc))
              (λ e, emit (Print (MsgAuthFailed e));; mret None);
    match auth with
    | None => mret tt
    | Some gc =>
        parks_data ← fetch_parks_data w (API_KEY cfg) MAX_PARKS;
        no_data ← none_or_empty parks_data;
        if (no_data : bool) then
          emit (Print MsgNoParksData)
        else
          df ← process_parks_data parks_data;
          if df_empty df then
            emit (Print MsgNoDataToWrite)
          else
            emit (Print MsgNewlineRule);;
            emit (Print MsgPreviewTitle);;
            emit (Print MsgRule);;
            emit (Print (MsgPreview (df_head df)));;
            success ← write_to_google_sheet w gc (SHEET_URL cfg) df;
            emit (Print MsgNewlineRule);;
            emit (Print (if (success : bool) then MsgSuccess else MsgFailed));;
            emit (Print MsgRule)
    end.

(** ** Sample inputs *)

Definition record_A : value := VDict {[ "fullName" := VStr "A" ]}.
Definition record_B : value := VDict {[ "fullName" := VStr "B" ]}.

Definition yellowstone : gmap string value :=
  <["fullName" := VStr "Yellowstone"]>
    (<["states" := VStr "WY,MT,ID"]>
      (<["acres" := VInt 2219791]> ∅)).


(** Status 200 and a JSON object that has no ['data'] key. *)
Definition response_without_data : response :=
  {| status_code := 200; text := "{}"; json := Ok (VDict ∅) |}.

(** A world in which every service answers, the API with [r]. *)
Definition world_answering (r : response) : world :=
  {| authenticate_user := Ok tt;
     google_auth_default := Ok tt;
     gspread_authorize := Ok tt;
     requests_get := Ok r;
     open_by_url := Ok tt;
     sheet1 := Ok tt;
     add_worksheet := Ok tt;
     worksheet_clear := Ok tt;
     worksheet_update := Ok tt |}.

Definition filled_config : config :=
  {| API_KEY := "k3y"; SHEET_URL := "https://docs.google.com/spreadsheets/d/1abc123def456/edit" |}.

(** A response with status 200 whose ['data'] is the list [parks]. *)
Definition response_with_parks (parks : list value) : response :=
  {| status_code := 200; text := ""; json := Ok (VDict {[ "data" := VList parks ]}) |}.

(** A response with status 404 and a body that is not JSON. *)
Definition response_not_found : response :=
  {| status_code := 404; text := "Not Found";
     json := Raise (RequestException "Expecting value") |}.

(** A world in which authentication answers and [requests.get] answers [r]. *)
Definition world_requesting (r : result response) : world :=
  {| authenticate_user := Ok tt;
     google_auth_default := Ok tt;
     gspread_authorize := Ok tt;
     requests_get := r;
     open_by_url := Ok tt;
     sheet1 := Ok tt;
     add_worksheet := Ok tt;
     worksheet_clear := Ok tt;
     worksheet_update := Ok tt |}.

(** A world in which the three authentication calls answer as given. *)
Definition world_authenticating (au gd ga : result unit) : world :=
  {| authenticate_user := au;
     google_auth_default := gd;
     gspread_authorize := ga;
     requests_get := Ok (response_with_parks [VDict yellowstone]);
     open_by_url := Ok tt;
     sheet1 := Ok tt;
     add_worksheet := Ok tt;
     worksheet_clear := Ok tt;
     worksheet_update := Ok tt |}.

(** A world in which the API returns the Yellowstone record and the
    spreadsheet calls answer as given. *)
Definition world_sheet (o s a c u : result unit) : world :=
  {| authenticate_user := Ok tt;
     google_auth_default := Ok tt;
     gspread_authorize := Ok tt;
     requests_get := Ok (response_with_parks [VDict yellowstone]);
     open_by_url := o;
     sheet1 := s;
     add_worksheet := a;
     worksheet_clear := c;
     worksheet_update := u |}.

(** The frame of the Yellowstone record alone. *)
Definition yellowstone_frame : DataFrame :=
  {| columns := ["Full Name"; "States"; "Description"; "Acres"; "Designation"];
     values := [[VStr "Yellowstone"; VStr "WY,MT,ID"; VStr "N/A"; VInt 2219791; VStr "N/A"]] |}.

(** ** Vocabulary of the further properties *)

(** Line 165: the block handed to [worksheet.update], the header row
    followed by the rows of the frame. *)
Definition data_to_write (df : DataFrame) : list (list value) :=
  (VStr <$> columns df) :: values df.

(** A block with the five-name header and at least one row, every row
    five values wide. *)
Definition full_table (data : list (list value)) : Prop :=
  ∃ rows, data = (VStr <$> output_names) :: rows ∧ rows ≠ []
          ∧ Forall (λ r, length r = length output_names) rows.

Definition is_http_call (ev : event) : bool :=
  match ev with HttpGet _ _ _ => true | _ => false end.

Definition is_sheet_call (ev : event) : bool :=
  match ev with
  | OpenByUrl _ | Sheet1 | AddWorksheet _ _ _ | WorksheetClear | WorksheetUpdate _ _ => true
  | _ => false
  end.

(** The values that have a length and can be iterated. *)
Definition is_sized (v : value) : bool :=
  match v with VList _ | VStr _ | VDict _ => true | _ => false end.

(** Lines 183-185. *)
Definition banner : list event := [Print MsgRule; Print MsgTitle; Print MsgRule].

(** * Properties *)

Ltac py_simpl :=
  unfold mbind, M_bind, bind, mret, M_ret, ret, raise, emit, call, try_except in *.

(** ** One record *)

Lemma build_park_info_dict (d : gmap string value) :
  build_park_info (VDict d) = (Ok (normalize_row d), []).
Proof. reflexivity. Qed.

Lemma py_get_not_dict (park : value) (key : string) (dflt : value) :
  is_dict park = false →
  py_get park key dflt = (Raise (AttributeError (type_name park) "get"), []).
Proof. by destruct park. Qed.

Lemma build_park_info_not_dict (park : value) :
  is_dict park = false →
  build_park_info park = (Raise (AttributeError (type_name park) "get"), []).
Proof. by destruct park. Qed.

(** Building the row of a record succeeds exactly on dicts. *)
Lemma build_park_info_ok (park : value) row tr :
  build_park_info park = (Ok row, tr) → is_dict park = true.
Proof.
  destruct (is_dict park) eqn:E; [done|].
  by rewrite build_park_info_not_dict.
Qed.

Lemma build_park_info_raise (park : value) e tr :
  build_park_info park = (Raise e, tr) → is_dict park = false.
Proof. by destruct park. Qed.

(** ** The loop *)

Lemma process_loop_cons_dict (d : gmap string value) (rest : list value) acc :
  process_loop (VDict d :: rest) acc = process_loop rest (acc ++ [normalize_row d]).
Proof.
  cbn [process_loop]. rewrite build_park_info_dict. py_simpl. simpl.
  by destruct (process_loop rest _) as [r t].
Qed.

(** On a record that is not a dict the handler raises in its turn, and the
    loop ends there. *)
Lemma process_loop_not_dict (park : value) (rest : list value) acc :
  is_dict park = false →
  process_loop (park :: rest) acc = (Raise (AttributeError (type_name park) "get"), []).
Proof.
  intros H. cbn [process_loop]. rewrite build_park_info_not_dict by done.
  rewrite py_get_not_dict by done. reflexivity.
Qed.

Lemma process_loop_app_dicts (ds : list (gmap string value)) (parks : list value) acc :
  process_loop ((VDict <$> ds) ++ parks) acc
  = process_loop parks (acc ++ (normalize_row <$> ds)).
Proof.
  revert acc. induction ds as [|d ds IH]; intros acc.
  - simpl. by rewrite app_nil_r.
  - rewrite fmap_cons. cbn [app]. rewrite process_loop_cons_dict, IH.
    by rewrite <- app_assoc.
Qed.

Lemma process_loop_dicts (ds : list (gmap string value)) acc :
  process_loop (VDict <$> ds) acc = (Ok (acc ++ (normalize_row <$> ds)), []).
Proof.
  rewrite <- (app_nil_r (VDict <$> ds)). by rewrite process_loop_app_dicts.
Qed.

(** A list of records is a run of dicts, followed or not by a first record
    that is not a dict. *)
Lemma parks_split (parks : list value) :
  (∃ ds, parks = VDict <$> ds) ∨
  (∃ ds park rest, parks = (VDict <$> ds) ++ park :: rest ∧ is_dict park = false).
Proof.
  induction parks as [|park parks IH].
  - left. by exists [].
  - destruct (is_dict park) eqn:Hd.
    + destruct park; try discriminate.
      destruct IH as [[ds ->]|(ds & p & rest & -> & Hp)].
      * left. by exists (d :: ds).
      * right. by exists (d :: ds), p, rest.
    + right. by exists [], park, parks.
Qed.

(** The loop returns only when every record is a dict: then it has printed
    no warning and its rows are the rows of the records, in order. *)
Lemma process_loop_ok (parks : list value) acc rows tr :
  process_loop parks acc = (Ok rows, tr) →
  ∃ ds, parks = VDict <$> ds ∧ rows = acc ++ (normalize_row <$> ds) ∧ tr = [].
Proof.
  intros H. destruct (parks_split parks) as [[ds ->]|(ds & p & rest & -> & Hp)].
  - rewrite process_loop_dicts in H. exists ds. by simplify_eq.
  - rewrite process_loop_app_dicts, process_loop_not_dict in H by done. discriminate.
Qed.




(** ** The frame *)

Lemma normalize_row_keys (d : gmap string value) : (normalize_row d).*1 = output_names.
Proof. reflexivity. Qed.

Lemma add_keys_first (d : gmap string value) :
  add_keys [] (normalize_row d) = output_names.
Proof. reflexivity. Qed.

Lemma add_keys_again (d : gmap string value) :
  add_keys output_names (normalize_row d) = output_names.
Proof. reflexivity. Qed.

Lemma columns_of_rows (ds : list (gmap string value)) :
  foldl add_keys [] (normalize_row <$> ds) = if ds is [] then [] else output_names.
Proof.
  destruct ds as [|d ds]; [done|].
  rewrite fmap_cons. cbn [foldl]. rewrite add_keys_first.
  induction ds as [|d' ds IH]; [done|].
  rewrite fmap_cons. cbn [foldl]. by rewrite add_keys_again.
Qed.

Lemma row_values (d : gmap string value) :
  (λ c, default nan (row_lookup c (normalize_row d))) <$> output_names
  = (normalize_row d).*2.
Proof. reflexivity. Qed.

Lemma pd_DataFrame_rows (ds : list (gmap string value)) :
  pd_DataFrame (normalize_row <$> ds)
  = {| columns := if ds is [] then [] else output_names;
       values := (λ d, (normalize_row d).*2) <$> ds |}.
Proof.
  unfold pd_DataFrame. rewrite columns_of_rows.
  destruct ds as [|d ds]; [done|]. f_equal.
  rewrite <- list_fmap_compose. apply list_fmap_ext. intros _ d' _. apply row_values.
Qed.

(** ** The whole step *)

Lemma process_parks_data_dicts (ds : list (gmap string value)) :
  process_parks_data (VList (VDict <$> ds))
  = (Ok {| columns := if ds is [] then [] else output_names;
           values := (λ d, (normalize_row d).*2) <$> ds |},
     [Print MsgProcessing; Print (MsgProcessed (Z.of_nat (length ds)))]).
Proof.
  unfold process_parks_data, py_iter. py_simpl.
  rewrite process_loop_dicts. cbn [app]. rewrite pd_DataFrame_rows.
  unfold df_len. cbn [values]. by rewrite length_fmap.
Qed.

(** The first record that is not a dict ends the step with the exception
    raised in the handler; only the opening line has been printed. *)
Lemma process_parks_data_not_dict (ds : list (gmap string value)) park rest :
  is_dict park = false →
  process_parks_data (VList ((VDict <$> ds) ++ park :: rest))
  = (Raise (AttributeError (type_name park) "get"), [Print MsgProcessing]).
Proof.
  intros H. unfold process_parks_data, py_iter. py_simpl.
  by rewrite process_loop_app_dicts, process_loop_not_dict.
Qed.

Lemma process_parks_data_ok (R : list value) df tr :
  process_parks_data (VList R) = (Ok df, tr) →
  ∃ ds, R = VDict <$> ds ∧
        df = {| columns := if ds is [] then [] else output_names;
                values := (λ d, (normalize_row d).*2) <$> ds |}.
Proof.
  intros H. destruct (parks_split R) as [[ds ->]|(ds & p & rest & -> & Hp)].
  - rewrite process_parks_data_dicts in H. exists ds. by simplify_eq.
  - rewrite process_parks_data_not_dict in H by done. discriminate.
Qed.

(** The step returns a table exactly when every record is a dict. *)
Lemma process_parks_data_returns (R : list value) :
  (∃ df tr, process_parks_data (VList R) = (Ok df, tr)) ↔ Forall (λ v, is_dict v = true) R.
Proof.
  split.
  - intros (df & tr & (ds & -> & _)%process_parks_data_ok).
    apply Forall_fmap, Forall_true. done.
  - intros HR. destruct (parks_split R) as [[ds ->]|(ds & p & rest & -> & Hp)].
    + rewrite process_parks_data_dicts. eauto.
    + apply Forall_app in HR as [_ HR]. apply Forall_cons in HR as [HR _]. congruence.
Qed.

(** * The specification's properties of the normalizer *)

(** C1.  On the list [[{fullName: "A"}, "not-a-record", {fullName: "B"}]] the
    step does not skip the string and go on.  Building the row raises
    [AttributeError], the handler of line 124 calls [park.get] on the same
    string to format its warning and raises again, and that exception
    leaves [process_parks_data]: no table is returned and no warning has
    been printed. *)
Theorem malformed_record_aborts_batch :
  process_parks_data (VList [record_A; VStr "not-a-record"; record_B])
  = (Raise (AttributeError "str" "get"), [Print MsgProcessing]).
Proof. vm_compute. reflexivity. Qed.

(** C2, as stated, does not hold: for the empty list the returned table
    does not carry the five column names. *)
Lemma empty_input_full_header_fails :
  ¬ ∃ df tr, process_parks_data (VList []) = (Ok df, tr)
             ∧ values df = [] ∧ columns df = output_names.
Proof.
  intros (df & tr & H & _ & Hc). vm_compute in H.
  injection H as <- _. discriminate Hc.
Qed.

(** C2, amended.  For the empty list [process_parks_data] returns a table
    with no rows and no columns, after printing that 0 parks were
    processed. *)
Theorem empty_input_empty_frame :
  process_parks_data (VList [])
  = (Ok {| columns := []; values := [] |},
     [Print MsgProcessing; Print (MsgProcessed 0)]).
Proof. reflexivity. Qed.





(** C5.  For a list [[X; Y; Z]] in which only [Y] fails to normalize the
    step does not return the rows of [X] and [Z]: the exception raised in
    the handler for [Y] leaves [process_parks_data], and [Z] is never
    reached. *)
Theorem failing_record_aborts_batch
    (X Y Z : value) (rx rz : list (string * value)) (e : exn) (tx ty tz : list event) :
  build_park_info X = (Ok rx, tx) →
  build_park_info Y = (Raise e, ty) →
  build_park_info Z = (Ok rz, tz) →
  process_parks_data (VList [X; Y; Z])
  = (Raise (AttributeError (type_name Y) "get"), [Print MsgProcessing]).
Proof.
  intros HX%build_park_info_ok HY%build_park_info_raise _.
  destruct X as [| | | | | |dx]; try discriminate.
  by apply (process_parks_data_not_dict [dx] Y [Z]).
Qed.

Lemma failing_record_aborts_batch_witness :
  process_parks_data (VList [record_A; VNone; record_B])
  = (Raise (AttributeError "NoneType" "get"), [Print MsgProcessing]).
Proof.
  eapply (failing_record_aborts_batch record_A VNone record_B); reflexivity.
Defined.

(** C6.  Whenever [process_parks_data] returns a table for the list [R],
    the table has at most as many rows as [R] has records. *)
Theorem rows_at_most_records (R : list value) (df : DataFrame) (tr : list event) :
  process_parks_data (VList R) = (Ok df, tr) →
  (length (values df) ≤ length R)%nat.
Proof.
  intros (ds & -> & ->)%process_parks_data_ok. cbn [values].
  by rewrite !length_fmap.
Qed.

Lemma rows_at_most_records_witness :
  (length (values {| columns := output_names;
                     values := [[VStr "A"; VStr "N/A"; VStr "N/A"; VStr "N/A"; VStr "N/A"];
                                [VStr "B"; VStr "N/A"; VStr "N/A"; VStr "N/A"; VStr "N/A"]] |})
   ≤ length [record_A; record_B])%nat.
Proof.
  apply (rows_at_most_records [record_A; record_B] _
           [Print MsgProcessing; Print (MsgProcessed 2)]).
  vm_compute. reflexivity.
Defined.

(** C7, as stated, does not hold: for the empty list a table is returned
    whose column list is not the list of the five output names. *)
Lemma header_regardless_of_input_fails :
  ∃ df tr, process_parks_data (VList []) = (Ok df, tr)
           ∧ ¬ (Forall (λ row, length row = length FieldSpec) (values df)
                ∧ columns df = output_names).
Proof.
  eexists _, _. split; [reflexivity|]. intros [_ Hc]. discriminate Hc.
Qed.

(** C7, amended.  Whenever [process_parks_data] returns a table for the
    list [R], every row has as many values as the FieldSpec has entries,
    and the column list is the FieldSpec's output names in order when [R]
    is not empty and the empty list when it is. *)
Theorem rectangular_table (R : list value) (df : DataFrame) (tr : list event) :
  process_parks_data (VList R) = (Ok df, tr) →
  Forall (λ row, length row = length FieldSpec) (values df)
  ∧ (R ≠ [] → columns df = output_names)
  ∧ (R = [] → columns df = []).
Proof.
  intros (ds & -> & ->)%process_parks_data_ok. cbn [values columns].
  split; [|split].
  - apply Forall_fmap, Forall_true. intros d. reflexivity.
  - by destruct ds.
  - by destruct ds.
Qed.

Lemma rectangular_table_witness :
  Forall (λ row, length row = length FieldSpec)
    [[VStr "Yellowstone"; VStr "WY,MT,ID"; VStr "N/A"; VInt 2219791; VStr "N/A"]]
  ∧ ([VDict yellowstone] ≠ [] →
     ["Full Name"; "States"; "Description"; "Acres"; "Designation"] = output_names)
  ∧ ([VDict yellowstone] = [] →
     ["Full Name"; "States"; "Description"; "Acres"; "Designation"] = []).
Proof.
  apply (rectangular_table [VDict yellowstone]
           {| columns := ["Full Name"; "States"; "Description"; "Acres"; "Designation"];
              values := [[VStr "Yellowstone"; VStr "WY,MT,ID"; VStr "N/A";
                          VInt 2219791; VStr "N/A"]] |}
           [Print MsgProcessing; Print (MsgProcessed 1)]).
  vm_compute. reflexivity.
Defined.



(** * The entry point *)

(** The trace of a sequence starts with the trace of its first part. *)
Lemma bind_trace {A B} (m : M A) (k : A → M B) : ∃ t, (bind m k).2 = m.2 ++ t.
Proof.
  destruct m as [[a|e] t1]; cbn.
  - destruct (k a) as [r t2]. by exists t2.
  - exists []. by rewrite app_nil_r.
Qed.

Lemma try_except_trace {A} (catches : exn → bool) (m : M A) (h : exn → M A) :
  ∃ t, (try_except catches m h).2 = m.2 ++ t.
Proof.
  destruct m as [[a|e] t1]; cbn.
  - exists []. by rewrite app_nil_r.
  - destruct (catches e); [destruct (h e) as [r t2]; by exists t2|].
    exists []. by rewrite app_nil_r.
Qed.

Lemma bind_emit_trace {B} (ev : event) (k : unit → M B) :
  (bind (emit ev) k).2 = ev :: (k tt).2.
Proof. cbn. by destruct (k tt). Qed.

(** With both variables filled in, [main] does go on to authenticate. *)
Lemma main_configured_authenticates (cfg : config) (w : world) :
  API_KEY cfg ≠ "YOUR_API_KEY_HERE" →
  SHEET_URL cfg ≠ "YOUR_SHEET_URL_HERE" →
  ∃ tr, (main cfg w).2 = Print MsgRule :: Print MsgTitle :: Print MsgRule ::
                         Print MsgAuthenticating :: AuthenticateUser :: tr.
Proof.
  intros Hk Hs. unfold main.
  rewrite (bool_decide_eq_false_2 _ Hk), (bool_decide_eq_false_2 _ Hs).
  unfold mbind, M_bind. rewrite !bind_emit_trace.
  match goal with |- context [(bind ?m ?k).2] => destruct (bind_trace m k) as [t1 ->] end.
  match goal with |- context [(try_except ?c ?m ?h).2] =>
    destruct (try_except_trace c m h) as [t2 ->] end.
  match goal with |- context [(bind ?m ?k).2] => destruct (bind_trace m k) as [t3 ->] end.
  unfold authenticate_google, mbind, M_bind. rewrite bind_emit_trace.
  match goal with |- context [(bind ?m ?k).2] => destruct (bind_trace m k) as [t4 ->] end.
  cbn. eauto.
Qed.

(** C8.  If the API key or the sheet URL still holds its placeholder,
    [main] returns normally after printing only, whatever the external
    services would answer: its trace has no authentication call and no
    network call. *)
Theorem placeholder_config_exits_early (cfg : config) (w : world) :
  API_KEY cfg = "YOUR_API_KEY_HERE" ∨ SHEET_URL cfg = "YOUR_SHEET_URL_HERE" →
  ∃ tr, main cfg w = (Ok tt, tr) ∧ Forall (λ ev, is_external_call ev = false) tr.
Proof.
  intros H. unfold main.
  destruct (bool_decide (API_KEY cfg = "YOUR_API_KEY_HERE")) eqn:Hk.
  - eexists. split; [reflexivity|]. repeat constructor.
  - destruct H as [H|H].
    + apply bool_decide_eq_false_1 in Hk. contradiction.
    + rewrite (bool_decide_eq_true_2 _ H).
      eexists. split; [reflexivity|]. repeat constructor.
Qed.

Lemma placeholder_config_exits_early_witness :
  ∃ tr, main shipped_config (world_answering response_without_data) = (Ok tt, tr)
        ∧ Forall (λ ev, is_external_call ev = false) tr.
Proof.
  apply (placeholder_config_exits_early shipped_config
           (world_answering response_without_data)).
  left. reflexivity.
Defined.

(** C9.  When the API answers with status 200 and a JSON object that has
    no ['data'] key, [fetch_parks_data] prints that 0 parks were retrieved
    and returns the empty list, not [None] and not an exception; and
    [main], once configured and authenticated, takes that for "no parks
    data": it prints that message and returns without processing or
    writing anything. *)
Theorem envelope_without_data_is_empty_result
    (cfg : config) (w : world) (resp : response) (d : gmap string value)
    (ta : list event) :
  API_KEY cfg ≠ "YOUR_API_KEY_HERE" →
  SHEET_URL cfg ≠ "YOUR_SHEET_URL_HERE" →
  authenticate_google w = (Ok tt, ta) →
  requests_get w = Ok resp →
  status_code resp = 200 →
  json resp = Ok (VDict d) →
  d !! "data" = None →
  (∀ api_key limit,
     fetch_parks_data w api_key limit
     = (Ok (VList []),
        [Print (MsgFetching limit); HttpGet NPS_API_BASE_URL api_key limit;
         Print (MsgRetrieved 0)]))
  ∧ main cfg w
    = (Ok tt,
       [Print MsgRule; Print MsgTitle; Print MsgRule] ++ ta ++
       [Print (MsgFetching MAX_PARKS); HttpGet NPS_API_BASE_URL (API_KEY cfg) MAX_PARKS;
        Print (MsgRetrieved 0); Print MsgNoParksData]).
Proof.
  intros Hk Hs Hauth Hget Hstatus Hjson Hdata.
  assert (Hfetch : ∀ api_key limit,
     fetch_parks_data w api_key limit
     = (Ok (VList []),
        [Print (MsgFetching limit); HttpGet NPS_API_BASE_URL api_key limit;
         Print (MsgRetrieved 0)])).
  { intros api_key limit. unfold fetch_parks_data. py_simpl.
    rewrite Hget, Hstatus. cbn. rewrite Hjson. cbn. rewrite Hdata. reflexivity. }
  split; [exact Hfetch|].
  unfold main.
  rewrite (bool_decide_eq_false_2 _ Hk), (bool_decide_eq_false_2 _ Hs).
  py_simpl. rewrite Hauth. cbn -[fetch_parks_data]. rewrite Hfetch. cbn.
  rewrite bool_decide_eq_true_2 by done. cbn. by rewrite app_nil_r.
Qed.

Lemma envelope_without_data_is_empty_result_witness :
  (∀ api_key limit,
     fetch_parks_data (world_answering response_without_data) api_key limit
     = (Ok (VList []),
        [Print (MsgFetching limit); HttpGet NPS_API_BASE_URL api_key limit;
         Print (MsgRetrieved 0)]))
  ∧ main filled_config (world_answering response_without_data)
    = (Ok tt,
       [Print MsgRule; Print MsgTitle; Print MsgRule] ++
       [Print MsgAuthenticating; AuthenticateUser; GoogleAuthDefault; GspreadAuthorize;
        Print MsgAuthenticated] ++
       [Print (MsgFetching MAX_PARKS);
        HttpGet NPS_API_BASE_URL (API_KEY filled_config) MAX_PARKS;
        Print (MsgRetrieved 0); Print MsgNoParksData]).
Proof.
  apply (envelope_without_data_is_empty_result filled_config
           (world_answering response_without_data) response_without_data ∅).
  - vm_compute. discriminate.
  - vm_compute. discriminate.
  - reflexivity.
  - reflexivity.
  - reflexivity.
  - reflexivity.
  - reflexivity.
Defined.

(** * Further properties of the code *)

(** ** [fetch_parks_data] *)

(** X1.  A response whose status is not 200 makes [fetch_parks_data] return
    [None] after printing the status code and the raw body; the body is not
    decoded. *)
Theorem fetch_non_200_returns_none
    (w : world) (api_key : string) (limit : Z) (resp : response) :
  requests_get w = Ok resp →
  status_code resp ≠ 200 →
  fetch_parks_data w api_key limit
  = (Ok VNone,
     [Print (MsgFetching limit); HttpGet NPS_API_BASE_URL api_key limit;
      Print (MsgApiFailed (status_code resp)); Print (MsgResponse (text resp))]).
Proof.
  intros Hget Hst. unfold fetch_parks_data. py_simpl.
  rewrite Hget. cbn. by rewrite (bool_decide_eq_false_2 _ Hst).
Qed.

Lemma fetch_non_200_returns_none_witness :
  fetch_parks_data (world_requesting (Ok response_not_found)) "k3y" 50
  = (Ok VNone,
     [Print (MsgFetching 50); HttpGet NPS_API_BASE_URL "k3y" 50;
      Print (MsgApiFailed 404); Print (MsgResponse "Not Found")]).
Proof.
  apply (fetch_non_200_returns_none (world_requesting (Ok response_not_found))
           "k3y" 50 response_not_found).
  - reflexivity.
  - vm_compute. discriminate.
Defined.

(** X2.  When [requests.get] raises a [RequestException], [fetch_parks_data]
    prints the error and returns [None]. *)
Theorem fetch_request_exception_returns_none
    (w : world) (api_key : string) (limit : Z) (e : exn) :
  requests_get w = Raise e →
  isinstance_RequestException e = true →
  fetch_parks_data w api_key limit
  = (Ok VNone,
     [Print (MsgFetching limit); HttpGet NPS_API_BASE_URL api_key limit;
      Print (MsgRequestError e)]).
Proof.
  intros Hget He. unfold fetch_parks_data. py_simpl. rewrite Hget. cbn.
  by rewrite He.
Qed.

Lemma fetch_request_exception_returns_none_witness :
  fetch_parks_data (world_requesting (Raise (RequestException "timed out"))) "k3y" 50
  = (Ok VNone,
     [Print (MsgFetching 50); HttpGet NPS_API_BASE_URL "k3y" 50;
      Print (MsgRequestError (RequestException "timed out"))]).
Proof.
  apply (fetch_request_exception_returns_none
           (world_requesting (Raise (RequestException "timed out"))) "k3y" 50
           (RequestException "timed out")); reflexivity.
Defined.

(** X3.  An exception of [requests.get] that is not a [RequestException] is
    not caught: it leaves [fetch_parks_data], and no error line is printed. *)
Theorem fetch_other_exception_propagates
    (w : world) (api_key : string) (limit : Z) (e : exn) :
  requests_get w = Raise e →
  isinstance_RequestException e = false →
  fetch_parks_data w api_key limit
  = (Raise e, [Print (MsgFetching limit); HttpGet NPS_API_BASE_URL api_key limit]).
Proof.
  intros Hget He. unfold fetch_parks_data. py_simpl. rewrite Hget. cbn.
  by rewrite He.
Qed.

Lemma fetch_other_exception_propagates_witness :
  fetch_parks_data (world_requesting (Raise (OtherException "MemoryError"))) "k3y" 50
  = (Raise (OtherException "MemoryError"),
     [Print (MsgFetching 50); HttpGet NPS_API_BASE_URL "k3y" 50]).
Proof.
  apply (fetch_other_exception_propagates
           (world_requesting (Raise (OtherException "MemoryError"))) "k3y" 50
           (OtherException "MemoryError")); reflexivity.
Defined.

(** X4.  On status 200 with a JSON object whose ['data'] is a list,
    [fetch_parks_data] returns that list as it is and prints its length. *)
Theorem fetch_returns_data_list
    (w : world) (api_key : string) (limit : Z) (resp : response)
    (d : gmap string value) (parks : list value) :
  requests_get w = Ok resp →
  status_code resp = 200 →
  json resp = Ok (VDict d) →
  d !! "data" = Some (VList parks) →
  fetch_parks_data w api_key limit
  = (Ok (VList parks),
     [Print (MsgFetching limit); HttpGet NPS_API_BASE_URL api_key limit;
      Print (MsgRetrieved (Z.of_nat (length parks)))]).
Proof.
  intros Hget Hst Hjson Hdata. unfold fetch_parks_data. py_simpl.
  rewrite Hget, Hst. cbn. rewrite Hjson. cbn. rewrite Hdata. reflexivity.
Qed.

Lemma fetch_returns_data_list_witness :
  fetch_parks_data (world_requesting (Ok (response_with_parks [record_A; record_B]))) "k3y" 50
  = (Ok (VList [record_A; record_B]),
     [Print (MsgFetching 50); HttpGet NPS_API_BASE_URL "k3y" 50;
      Print (MsgRetrieved (Z.of_nat (length [record_A; record_B])))]).
Proof.
  apply (fetch_returns_data_list
           (world_requesting (Ok (response_with_parks [record_A; record_B]))) "k3y" 50
           (response_with_parks [record_A; record_B])
           {[ "data" := VList [record_A; record_B] ]} [record_A; record_B]);
    reflexivity.
Defined.

(** X5.  Whatever the world answers, [fetch_parks_data] makes exactly one
    external call: the GET to the fixed URL with the given key and limit.
    There is no retry and no second page. *)
Theorem fetch_single_request (w : world) (api_key : string) (limit : Z) :
  filter (λ ev, is_external_call ev = true) (fetch_parks_data w api_key limit).2
  = [HttpGet NPS_API_BASE_URL api_key limit].
Proof.
  unfold fetch_parks_data. py_simpl.
  destruct (requests_get w) as [resp|e]; cbn.
  - destruct (bool_decide (status_code resp = 200)); cbn; [|reflexivity].
    destruct (json resp) as [data|e]; cbn.
    + destruct data as [| | | | | |d]; try reflexivity. cbn.
      destruct (d !! "data") as [[| | | | | |]|]; reflexivity.
    + destruct (isinstance_RequestException e); reflexivity.
  - destruct (isinstance_RequestException e); reflexivity.
Qed.

(** X6.  [fetch_parks_data] returns [None] only when the request failed:
    [requests.get] raised a [RequestException], or the status was not 200,
    or decoding the body raised a [RequestException]. *)
Theorem fetch_none_only_on_failure
    (w : world) (api_key : string) (limit : Z) (tr : list event) :
  fetch_parks_data w api_key limit = (Ok VNone, tr) →
  (∃ e, requests_get w = Raise e ∧ isinstance_RequestException e = true)
  ∨ (∃ resp, requests_get w = Ok resp
       ∧ (status_code resp ≠ 200
          ∨ ∃ e, json resp = Raise e ∧ isinstance_RequestException e = true)).
Proof.
  unfold fetch_parks_data. py_simpl.
  destruct (requests_get w) as [resp|e]; cbn.
  - intros H. right. exists resp. split; [done|].
    destruct (bool_decide (status_code resp = 200)) eqn:Hst; cbn in H.
    + right. destruct (json resp) as [data|e]; cbn in H.
      * destruct data as [| | | | | |d]; try discriminate. cbn in H.
        destruct (d !! "data") as [[| | | | | |]|]; discriminate.
      * exists e. destruct (isinstance_RequestException e); [done|discriminate].
    + left. by apply bool_decide_eq_false_1 in Hst.
  - intros H. left. exists e.
    destruct (isinstance_RequestException e); [done|discriminate].
Qed.

Lemma fetch_none_only_on_failure_witness :
  (∃ e, requests_get (world_requesting (Ok response_not_found)) = Raise e
        ∧ isinstance_RequestException e = true)
  ∨ (∃ resp, requests_get (world_requesting (Ok response_not_found)) = Ok resp
       ∧ (status_code resp ≠ 200
          ∨ ∃ e, json resp = Raise e ∧ isinstance_RequestException e = true)).
Proof.
  apply (fetch_none_only_on_failure (world_requesting (Ok response_not_found)) "k3y" 50
           [Print (MsgFetching 50); HttpGet NPS_API_BASE_URL "k3y" 50;
            Print (MsgApiFailed 404); Print (MsgResponse "Not Found")]).
  vm_compute. reflexivity.
Defined.

(** X7.  On status 200 with a JSON body that is not an object (a list, a
    string, a number, null), [data.get] raises [AttributeError], which is
    not a [RequestException]: it leaves [fetch_parks_data]. *)
Theorem fetch_body_not_dict_raises
    (w : world) (api_key : string) (limit : Z) (resp : response) (body : value) :
  requests_get w = Ok resp →
  status_code resp = 200 →
  json resp = Ok body →
  is_dict body = false →
  fetch_parks_data w api_key limit
  = (Raise (AttributeError (type_name body) "get"),
     [Print (MsgFetching limit); HttpGet NPS_API_BASE_URL api_key limit]).
Proof.
  intros Hget Hst Hjson Hb. unfold fetch_parks_data. py_simpl.
  rewrite Hget, Hst. cbn. rewrite Hjson. cbn. by destruct body.
Qed.

Lemma fetch_body_not_dict_raises_witness :
  fetch_parks_data
    (world_requesting (Ok {| status_code := 200; text := "[]"; json := Ok (VList []) |}))
    "k3y" 50
  = (Raise (AttributeError (type_name (VList [])) "get"),
     [Print (MsgFetching 50); HttpGet NPS_API_BASE_URL "k3y" 50]).
Proof.
  apply (fetch_body_not_dict_raises
           (world_requesting (Ok {| status_code := 200; text := "[]"; json := Ok (VList []) |}))
           "k3y" 50 {| status_code := 200; text := "[]"; json := Ok (VList []) |} (VList []));
    reflexivity.
Defined.

(** X8.  On status 200 with a JSON object whose ['data'] has no length
    (null, a boolean, a number), [len(parks)] raises [TypeError] before the
    success line is printed, and the exception leaves [fetch_parks_data]. *)
Theorem fetch_data_unsized_raises
    (w : world) (api_key : string) (limit : Z) (resp : response)
    (d : gmap string value) (v : value) :
  requests_get w = Ok resp →
  status_code resp = 200 →
  json resp = Ok (VDict d) →
  d !! "data" = Some v →
  is_sized v = false →
  fetch_parks_data w api_key limit
  = (Raise (TypeError ("object of type '" +:+ type_name v +:+ "' has no len()")),
     [Print (MsgFetching limit); HttpGet NPS_API_BASE_URL api_key limit]).
Proof.
  intros Hget Hst Hjson Hdata Hv. unfold fetch_parks_data. py_simpl.
  rewrite Hget, Hst. cbn. rewrite Hjson. cbn. rewrite Hdata. by destruct v.
Qed.

Lemma fetch_data_unsized_raises_witness :
  fetch_parks_data
    (world_requesting
       (Ok {| status_code := 200; text := ""; json := Ok (VDict {[ "data" := VNone ]}) |}))
    "k3y" 50
  = (Raise (TypeError ("object of type '" +:+ type_name VNone +:+ "' has no len()")),
     [Print (MsgFetching 50); HttpGet NPS_API_BASE_URL "k3y" 50]).
Proof.
  apply (fetch_data_unsized_raises
           (world_requesting
              (Ok {| status_code := 200; text := "";
                     json := Ok (VDict {[ "data" := VNone ]}) |}))
           "k3y" 50
           {| status_code := 200; text := ""; json := Ok (VDict {[ "data" := VNone ]}) |}
           {[ "data" := VNone ]} VNone); reflexivity.
Defined.

(** ** [process_parks_data] *)

(** The loop prints nothing: the only [print] in it is the warning of the
    handler, which is never reached. *)
Lemma process_loop_trace (parks : list value) acc : (process_loop parks acc).2 = [].
Proof.
  destruct (parks_split parks) as [[ds ->]|(ds & p & rest & -> & Hp)].
  - by rewrite process_loop_dicts.
  - by rewrite process_loop_app_dicts, process_loop_not_dict.
Qed.

Lemma py_iter_trace (parks : value) : (py_iter parks).2 = [].
Proof. by destruct parks. Qed.

Lemma process_parks_data_trace (parks : value) :
  ∃ tail, (process_parks_data parks).2 = Print MsgProcessing :: tail
          ∧ (tail = [] ∨ ∃ n, tail = [Print (MsgProcessed n)]).
Proof.
  unfold process_parks_data. py_simpl.
  pose proof (py_iter_trace parks) as Hi.
  destruct (py_iter parks) as [[items|e] ti]; cbn in Hi; subst ti; [|cbn; eauto].
  pose proof (process_loop_trace items []) as Ht.
  destruct (process_loop items []) as [[rows|e] tl]; cbn in Ht; subst tl; cbn; eauto.
Qed.

Lemma process_parks_data_prints (parks : value) :
  Forall (λ ev, is_external_call ev = false) (process_parks_data parks).2.
Proof.
  destruct (process_parks_data_trace parks) as (tail & -> & [->|[n ->]]);
    repeat constructor.
Qed.

(** What the step returns, for any argument: the frame of a list of dicts. *)
Lemma process_parks_data_ok_any (parks : value) df tr :
  process_parks_data parks = (Ok df, tr) →
  ∃ ds, df = {| columns := if ds is [] then [] else output_names;
                values := (λ d, (normalize_row d).*2) <$> ds |}.
Proof.
  unfold process_parks_data. py_simpl.
  destruct (py_iter parks) as [[items|e] ti] eqn:Hi; cbn; [|done].
  destruct (process_loop items []) as [[rows|e] tl] eqn:Hl; cbn; [|done].
  apply process_loop_ok in Hl as (ds & -> & -> & ->). cbn [app].
  intros H. exists ds. rewrite pd_DataFrame_rows in H. by simplify_eq.
Qed.

(** X9.  Whatever its argument, [process_parks_data] prints either the
    opening line alone, and then it raises, or the opening line and the
    count of processed parks, and then it returns.  The warning of line 124
    is never printed. *)
Theorem process_output (parks : value) :
  (∃ e, process_parks_data parks = (Raise e, [Print MsgProcessing]))
  ∨ (∃ df, process_parks_data parks
           = (Ok df, [Print MsgProcessing; Print (MsgProcessed (df_len df))])).
Proof.
  unfold process_parks_data. py_simpl.
  pose proof (py_iter_trace parks) as Hi.
  destruct (py_iter parks) as [[items|e] ti]; cbn in Hi; subst ti; [|cbn; eauto].
  pose proof (process_loop_trace items []) as Ht.
  destruct (process_loop items []) as [[rows|e] tl]; cbn in Ht; subst tl; cbn; eauto.
Qed.

(** X10.  All or nothing: when [process_parks_data] returns a table for a
    list, every record of the list is a dict and the table has exactly one
    row per record.  No record is ever skipped. *)
Theorem process_all_or_nothing (R : list value) (df : DataFrame) (tr : list event) :
  process_parks_data (VList R) = (Ok df, tr) →
  Forall (λ v, is_dict v = true) R ∧ length (values df) = length R.
Proof.
  intros (ds & -> & ->)%process_parks_data_ok. split.
  - apply Forall_fmap, Forall_true. done.
  - cbn. by rewrite !length_fmap.
Qed.

Lemma process_all_or_nothing_witness :
  Forall (λ v, is_dict v = true) [VDict yellowstone]
  ∧ length (values yellowstone_frame) = length [VDict yellowstone].
Proof.
  apply (process_all_or_nothing [VDict yellowstone] yellowstone_frame
           [Print MsgProcessing; Print (MsgProcessed 1)]).
  vm_compute. reflexivity.
Defined.

(** X11.  Given a value that cannot be iterated ([None], which is what
    [fetch_parks_data] returns on failure, a boolean, a number),
    [process_parks_data] raises [TypeError] after its opening line. *)
Theorem process_unsized_raises (parks : value) :
  is_sized parks = false →
  process_parks_data parks
  = (Raise (TypeError ("'" +:+ type_name parks +:+ "' object is not iterable")),
     [Print MsgProcessing]).
Proof. by destruct parks. Qed.

Lemma process_unsized_raises_witness :
  process_parks_data VNone
  = (Raise (TypeError ("'" +:+ type_name VNone +:+ "' object is not iterable")),
     [Print MsgProcessing]).
Proof. apply (process_unsized_raises VNone). reflexivity. Defined.

(** X12.  Given a non-empty dict (the JSON envelope instead of its ['data']
    list), the loop runs over the keys, which are strings, and
    [process_parks_data] raises [AttributeError] on the first one. *)
Theorem process_envelope_raises (d : gmap string value) :
  d ≠ ∅ →
  process_parks_data (VDict d)
  = (Raise (AttributeError "str" "get"), [Print MsgProcessing]).
Proof.
  intros Hd. unfold process_parks_data. py_simpl. cbn.
  destruct (map_to_list d) as [|[k v] l] eqn:Hl.
  - by apply map_to_list_empty_iff in Hl.
  - rewrite !fmap_cons. by rewrite process_loop_not_dict.
Qed.

Lemma process_envelope_raises_witness :
  process_parks_data (VDict {[ "data" := VList [record_A] ]})
  = (Raise (AttributeError "str" "get"), [Print MsgProcessing]).
Proof.
  apply (process_envelope_raises {[ "data" := VList [record_A] ]}).
  vm_compute. discriminate.
Defined.

(** ** [authenticate_google] *)

(** X13.  [authenticate_google] returns exactly when the three calls
    succeed, and then it has made them in the order [authenticate_user],
    [default], [authorize], between its two lines of output. *)
Theorem authenticate_google_ok_iff (w : world) (tr : list event) :
  authenticate_google w = (Ok tt, tr)
  ↔ authenticate_user w = Ok tt ∧ google_auth_default w = Ok tt
    ∧ gspread_authorize w = Ok tt
    ∧ tr = [Print MsgAuthenticating; AuthenticateUser; GoogleAuthDefault;
            GspreadAuthorize; Print MsgAuthenticated].
Proof.
  unfold authenticate_google. py_simpl.
  destruct (authenticate_user w) as [[]|e1]; cbn;
    [destruct (google_auth_default w) as [[]|e2]; cbn;
      [destruct (gspread_authorize w) as [[]|e3]; cbn|]|];
    split; try (intros (? & ? & ? & ?)); try done.
  - intros H. by simplify_eq.
  - by subst.
Qed.

(** X14.  Each authentication step runs only after the previous ones have
    succeeded, and the success line is printed only after all three. *)
Theorem authenticate_google_call_order (w : world) (i : nat) (ev : event) :
  (authenticate_google w).2 !! i = Some ev →
  match ev with
  | GoogleAuthDefault => authenticate_user w = Ok tt
  | GspreadAuthorize => authenticate_user w = Ok tt ∧ google_auth_default w = Ok tt
  | Print MsgAuthenticated =>
      authenticate_user w = Ok tt ∧ google_auth_default w = Ok tt
      ∧ gspread_authorize w = Ok tt
  | _ => True
  end.
Proof.
  unfold authenticate_google. py_simpl.
  destruct (authenticate_user w) as [[]|e1]; cbn;
    [destruct (google_auth_default w) as [[]|e2]; cbn;
      [destruct (gspread_authorize w) as [[]|e3]; cbn|]|];
    intros H; do 5 (destruct i as [|i]; [by simplify_eq/=|]); by simplify_eq/=.
Qed.

Lemma authenticate_google_call_order_witness :
  authenticate_user (world_authenticating (Ok tt) (Ok tt) (Raise (OtherException "denied")))
  = Ok tt
  ∧ google_auth_default
      (world_authenticating (Ok tt) (Ok tt) (Raise (OtherException "denied"))) = Ok tt.
Proof.
  apply (authenticate_google_call_order
           (world_authenticating (Ok tt) (Ok tt) (Raise (OtherException "denied")))
           3 GspreadAuthorize).
  reflexivity.
Defined.

(** ** [write_to_google_sheet] *)

(** Case analysis on how the five spreadsheet calls answer. *)
Ltac write_cases w :=
  unfold write_to_google_sheet; py_simpl;
  destruct (open_by_url w) as [[]|?eo]; cbn;
  [ destruct (sheet1 w) as [[]|?es]; cbn;
    [ | destruct (add_worksheet w) as [[]|?ea]; cbn ];
    try (destruct (worksheet_clear w) as [[]|?ec]; cbn;
         [ destruct (worksheet_update w) as [[]|?eu]; cbn | ])
  | ];
  repeat match goal with
         | |- context [isinstance_Exception ?e] =>
             destruct (isinstance_Exception e) eqn:?; cbn
         end.

(** X15.  When reading [sheet1] raises, whatever the exception, the
    worksheet is created with the fixed title and size, and the write goes
    on as usual: clear, then one update at A1 with the header and the rows. *)
Theorem write_fallback_worksheet
    (w : world) (gc : unit) (sheet_url : string) (df : DataFrame) (e : exn) :
  open_by_url w = Ok tt →
  sheet1 w = Raise e →
  add_worksheet w = Ok tt →
  worksheet_clear w = Ok tt →
  worksheet_update w = Ok tt →
  write_to_google_sheet w gc sheet_url df
  = (Ok true,
     [Print MsgWriting; OpenByUrl sheet_url; Sheet1;
      AddWorksheet "NPS Parks Data" "100" "20"; WorksheetClear;
      WorksheetUpdate "A1" (data_to_write df);
      Print (MsgWrote (df_len df)); Print (MsgSheetUrl sheet_url)]).
Proof.
  intros Ho Hs Ha Hc Hu. unfold write_to_google_sheet. py_simpl.
  by rewrite Ho, Hs, Ha, Hc, Hu.
Qed.

Lemma write_fallback_worksheet_witness :
  write_to_google_sheet
    (world_sheet (Ok tt) (Raise (NonException "KeyboardInterrupt")) (Ok tt) (Ok tt) (Ok tt))
    tt "https://sheet" yellowstone_frame
  = (Ok true,
     [Print MsgWriting; OpenByUrl "https://sheet"; Sheet1;
      AddWorksheet "NPS Parks Data" "100" "20"; WorksheetClear;
      WorksheetUpdate "A1" (data_to_write yellowstone_frame);
      Print (MsgWrote (df_len yellowstone_frame)); Print (MsgSheetUrl "https://sheet")]).
Proof.
  apply (write_fallback_worksheet
           (world_sheet (Ok tt) (Raise (NonException "KeyboardInterrupt"))
              (Ok tt) (Ok tt) (Ok tt))
           tt "https://sheet" yellowstone_frame (NonException "KeyboardInterrupt"));
    reflexivity.
Defined.

(** X16.  No [Exception] leaves [write_to_google_sheet]: it returns a
    boolean, and what it can still raise is outside [Exception]
    (KeyboardInterrupt, SystemExit). *)
Theorem write_contains_exceptions
    (w : world) (gc : unit) (sheet_url : string) (df : DataFrame) :
  match (write_to_google_sheet w gc sheet_url df).1 with
  | Ok _ => True
  | Raise e => isinstance_Exception e = false
  end.
Proof. write_cases w; done. Qed.

(** X17.  [write_to_google_sheet] returns [True] exactly when the sheet was
    opened, a worksheet was obtained ([sheet1], or [add_worksheet] after
    [sheet1] failed), and both [clear] and [update] succeeded. *)
Theorem write_true_iff (w : world) (gc : unit) (sheet_url : string) (df : DataFrame) :
  (write_to_google_sheet w gc sheet_url df).1 = Ok true
  ↔ open_by_url w = Ok tt
    ∧ (sheet1 w = Ok tt ∨ add_worksheet w = Ok tt)
    ∧ worksheet_clear w = Ok tt
    ∧ worksheet_update w = Ok tt.
Proof.
  write_cases w; split; try done; try (intros (? & [?|?] & ? & ?); done); auto.
Qed.

(** X18.  The order of the spreadsheet calls.  A worksheet is added only
    after [sheet1] raised, with the fixed title and size.  The worksheet is
    cleared only once one was obtained.  The update is made only after the
    clear succeeded, at cell A1, with the header row followed by the rows
    of the frame. *)
Theorem write_call_order
    (w : world) (gc : unit) (sheet_url : string) (df : DataFrame) (i : nat) (ev : event) :
  (write_to_google_sheet w gc sheet_url df).2 !! i = Some ev →
  match ev with
  | OpenByUrl url => url = sheet_url
  | AddWorksheet title rows cols =>
      (∃ e, sheet1 w = Raise e)
      ∧ title = "NPS Parks Data" ∧ rows = "100" ∧ cols = "20"
  | WorksheetClear =>
      open_by_url w = Ok tt ∧ (sheet1 w = Ok tt ∨ add_worksheet w = Ok tt)
  | WorksheetUpdate cell data =>
      open_by_url w = Ok tt ∧ worksheet_clear w = Ok tt
      ∧ cell = "A1" ∧ data = data_to_write df
  | _ => True
  end.
Proof.
  write_cases w; intros H;
    do 9 (destruct i as [|i]; [simplify_eq/=; by eauto|]); by simplify_eq/=.
Qed.

Lemma write_call_order_witness :
  open_by_url (world_sheet (Ok tt) (Ok tt) (Ok tt) (Ok tt) (Raise (OtherException "quota")))
  = Ok tt
  ∧ worksheet_clear
      (world_sheet (Ok tt) (Ok tt) (Ok tt) (Ok tt) (Raise (OtherException "quota"))) = Ok tt
  ∧ "A1" = "A1" ∧ data_to_write yellowstone_frame = data_to_write yellowstone_frame.
Proof.
  apply (write_call_order
           (world_sheet (Ok tt) (Ok tt) (Ok tt) (Ok tt) (Raise (OtherException "quota")))
           tt "https://sheet" yellowstone_frame 4
           (WorksheetUpdate "A1" (data_to_write yellowstone_frame))).
  reflexivity.
Defined.

(** X19.  There is no recovery from a failed update: when [update] raises
    an [Exception] the worksheet has already been cleared, the error is
    printed and [False] is returned. *)
Theorem write_failed_update
    (w : world) (gc : unit) (sheet_url : string) (df : DataFrame) (e : exn) :
  open_by_url w = Ok tt →
  sheet1 w = Ok tt →
  worksheet_clear w = Ok tt →
  worksheet_update w = Raise e →
  isinstance_Exception e = true →
  write_to_google_sheet w gc sheet_url df
  = (Ok false,
     [Print MsgWriting; OpenByUrl sheet_url; Sheet1; WorksheetClear;
      WorksheetUpdate "A1" (data_to_write df); Print (MsgWriteError e)]).
Proof.
  intros Ho Hs Hc Hu He. unfold write_to_google_sheet. py_simpl.
  by rewrite Ho, Hs, Hc, Hu; cbn; rewrite He.
Qed.

Lemma write_failed_update_witness :
  write_to_google_sheet
    (world_sheet (Ok tt) (Ok tt) (Ok tt) (Ok tt) (Raise (OtherException "quota")))
    tt "https://sheet" yellowstone_frame
  = (Ok false,
     [Print MsgWriting; OpenByUrl "https://sheet"; Sheet1; WorksheetClear;
      WorksheetUpdate "A1" (data_to_write yellowstone_frame);
      Print (MsgWriteError (OtherException "quota"))]).
Proof.
  apply (write_failed_update
           (world_sheet (Ok tt) (Ok tt) (Ok tt) (Ok tt) (Raise (OtherException "quota")))
           tt "https://sheet" yellowstone_frame (OtherException "quota")); reflexivity.
Defined.

(** ** [main] *)

(** A property of events holds along a sequence when it holds along each
    part. *)
Section trace.
Context (P : event → Prop).

Lemma Forall_trace_bind {A B} (m : M A) (k : A → M B) :
  Forall P m.2 → (∀ a, m.1 = Ok a → Forall P (k a).2) → Forall P (bind m k).2.
Proof.
  destruct m as [[a|e] t1]; cbn; intros Hm Hk; [|done].
  specialize (Hk a eq_refl). destruct (k a) as [r t2]. by apply Forall_app.
Qed.

Lemma Forall_trace_try {A} (catches : exn → bool) (m : M A) (h : exn → M A) :
  Forall P m.2 → (∀ e, m.1 = Raise e → Forall P (h e).2) →
  Forall P (try_except catches m h).2.
Proof.
  destruct m as [[a|e] t1]; cbn; intros Hm Hh; [done|].
  destruct (catches e); [|done].
  specialize (Hh e eq_refl). destruct (h e) as [r t2]. by apply Forall_app.
Qed.
End trace.

Lemma authenticate_google_trace (w : world) :
  Forall (λ ev, is_http_call ev = false ∧ is_sheet_call ev = false)
    (authenticate_google w).2.
Proof.
  unfold authenticate_google. py_simpl.
  destruct (authenticate_user w) as [[]|e1]; cbn;
    [destruct (google_auth_default w) as [[]|e2]; cbn;
      [destruct (gspread_authorize w) as [[]|e3]; cbn|]|];
    repeat constructor.
Qed.

Lemma fetch_parks_data_trace (w : world) (api_key : string) (limit : Z) :
  Forall (λ ev, is_sheet_call ev = false
                ∧ (is_http_call ev = true → ev = HttpGet NPS_API_BASE_URL api_key limit))
    (fetch_parks_data w api_key limit).2.
Proof.
  unfold fetch_parks_data. py_simpl.
  destruct (requests_get w) as [resp|e]; cbn.
  - destruct (bool_decide (status_code resp = 200)); cbn; [|repeat constructor; done].
    destruct (json resp) as [data|e]; cbn.
    + destruct data as [| | | | | |d]; try (repeat constructor; done). cbn.
      destruct (d !! "data") as [[| | | | | |]|]; repeat constructor; done.
    + destruct (isinstance_RequestException e); repeat constructor; done.
  - destruct (isinstance_RequestException e); repeat constructor; done.
Qed.

Lemma write_to_google_sheet_trace
    (w : world) (gc : unit) (sheet_url : string) (df : DataFrame) :
  Forall (λ ev, is_http_call ev = false
                ∧ ∀ cell data, ev = WorksheetUpdate cell data →
                               cell = "A1" ∧ data = data_to_write df)
    (write_to_google_sheet w gc sheet_url df).2.
Proof.
  write_cases w; repeat constructor; intros; by simplify_eq.
Qed.

Lemma none_or_empty_trace (v : value) : (none_or_empty v).2 = [].
Proof. by destruct v. Qed.

(** [main] once both variables are filled in. *)
Lemma main_configured (cfg : config) (w : world) :
  API_KEY cfg ≠ "YOUR_API_KEY_HERE" →
  SHEET_URL cfg ≠ "YOUR_SHEET_URL_HERE" →
  main cfg w
  = (emit (Print MsgRule);;
     emit (Print MsgTitle);;
     emit (Print MsgRule);;
     auth ← try_except isinstance_Exception
              (gc ← authenticate_google w; mret (Some gc))
              (λ e, emit (Print (MsgAuthFailed e));; mret None);
     match auth with
     | None => (mret tt : M unit)
     | Some gc =>
         parks_data ← fetch_parks_data w (API_KEY cfg) MAX_PARKS;
         no_data ← none_or_empty parks_data;
         if (no_data : bool) then
           emit (Print MsgNoParksData)
         else
           df ← process_parks_data parks_data;
           if df_empty df then
             emit (Print MsgNoDataToWrite)
           else
             emit (Print MsgNewlineRule);;
             emit (Print MsgPreviewTitle);;
             emit (Print MsgRule);;
             emit (Print (MsgPreview (df_head df)));;
             success ← write_to_google_sheet w gc (SHEET_URL cfg) df;
             emit (Print MsgNewlineRule);;
             emit (Print (if (success : bool) then MsgSuccess else MsgFailed));;
             emit (Print MsgRule)
     end).
Proof.
  intros Hk Hs. unfold main.
  by rewrite (bool_decide_eq_false_2 _ Hk), (bool_decide_eq_false_2 _ Hs).
Qed.

(** A property that holds of every line of output holds along [main] when
    it holds along authentication, along the fetch that follows a
    successful authentication, and along the write of any frame that
    processing returned and that is not empty. *)
Lemma main_trace (P : event → Prop) (cfg : config) (w : world) :
  (∀ m, P (Print m)) →
  Forall P (authenticate_google w).2 →
  ((authenticate_google w).1 = Ok tt →
   Forall P (fetch_parks_data w (API_KEY cfg) MAX_PARKS).2) →
  (∀ parks_data df,
     (process_parks_data parks_data).1 = Ok df → df_empty df = false →
     Forall P (write_to_google_sheet w tt (SHEET_URL cfg) df).2) →
  Forall P (main cfg w).2.
Proof.
  intros Hprint Hauth Hfetch Hwrite.
  assert (Hemit : ∀ m, Forall P (emit (Print m)).2) by (intros m; by constructor).
  unfold main, mbind, M_bind.
  do 3 (apply Forall_trace_bind; [apply Hemit|intros _ _]).
  destruct (bool_decide (API_KEY cfg = _)); [apply Hemit|].
  destruct (bool_decide (SHEET_URL cfg = _)); [apply Hemit|].
  apply Forall_trace_bind.
  - apply Forall_trace_try.
    + apply Forall_trace_bind; [done|]. intros; constructor.
    + intros e _. apply Forall_trace_bind; [apply Hemit|]. intros; constructor.
  - intros [[]|] Ha; [|constructor].
    assert ((authenticate_google w).1 = Ok ()) as Hok.
    { unfold try_except, bind in Ha.
      destruct (authenticate_google w) as [[[]|e] ta]; cbn in *; [done|].
      by destruct (isinstance_Exception e). }
    apply Forall_trace_bind; [by apply Hfetch|intros parks_data _].
    apply Forall_trace_bind; [by rewrite none_or_empty_trace|intros [] _]; [apply Hemit|].
    apply Forall_trace_bind.
    { eapply Forall_impl; [apply process_parks_data_prints|].
      intros [] ?; by try apply Hprint. }
    intros df Hdf. destruct (df_empty df) eqn:He; [apply Hemit|].
    do 4 (apply Forall_trace_bind; [apply Hemit|intros _ _]).
    apply Forall_trace_bind; [by eapply Hwrite|intros success _].
    do 2 (apply Forall_trace_bind; [apply Hemit|intros _ _]). apply Hemit.
Qed.

(** X20.  When authentication raises an [Exception], [main] prints the
    failure and returns normally; nothing is fetched and nothing is
    written. *)
Theorem main_auth_failure_stops (cfg : config) (w : world) (e : exn) (ta : list event) :
  API_KEY cfg ≠ "YOUR_API_KEY_HERE" →
  SHEET_URL cfg ≠ "YOUR_SHEET_URL_HERE" →
  authenticate_google w = (Raise e, ta) →
  isinstance_Exception e = true →
  main cfg w = (Ok tt, banner ++ ta ++ [Print (MsgAuthFailed e)]).
Proof.
  intros Hk Hs Ha He. rewrite main_configured by done. py_simpl.
  rewrite Ha, He. cbn. by rewrite !app_nil_r.
Qed.

Lemma main_auth_failure_stops_witness :
  main filled_config
    (world_authenticating (Raise (OtherException "denied")) (Ok tt) (Ok tt))
  = (Ok tt,
     banner ++ [Print MsgAuthenticating; AuthenticateUser]
     ++ [Print (MsgAuthFailed (OtherException "denied"))]).
Proof.
  apply (main_auth_failure_stops filled_config
           (world_authenticating (Raise (OtherException "denied")) (Ok tt) (Ok tt))
           (OtherException "denied") [Print MsgAuthenticating; AuthenticateUser]).
  - vm_compute. discriminate.
  - vm_compute. discriminate.
  - reflexivity.
  - reflexivity.
Defined.

(** X21.  When the fetch returns [None], [main] prints that no parks data
    was retrieved and returns normally, without processing or writing. *)
Theorem main_fetch_none_stops (cfg : config) (w : world) (ta tf : list event) :
  API_KEY cfg ≠ "YOUR_API_KEY_HERE" →
  SHEET_URL cfg ≠ "YOUR_SHEET_URL_HERE" →
  authenticate_google w = (Ok tt, ta) →
  fetch_parks_data w (API_KEY cfg) MAX_PARKS = (Ok VNone, tf) →
  main cfg w = (Ok tt, banner ++ ta ++ tf ++ [Print MsgNoParksData]).
Proof.
  intros Hk Hs Ha Hf. rewrite main_configured by done. py_simpl.
  rewrite Ha. cbn -[fetch_parks_data]. rewrite Hf. cbn.
  by rewrite app_nil_r.
Qed.

Lemma main_fetch_none_stops_witness :
  main filled_config (world_requesting (Ok response_not_found))
  = (Ok tt,
     banner
     ++ [Print MsgAuthenticating; AuthenticateUser; GoogleAuthDefault; GspreadAuthorize;
         Print MsgAuthenticated]
     ++ [Print (MsgFetching 50); HttpGet NPS_API_BASE_URL "k3y" 50;
         Print (MsgApiFailed 404); Print (MsgResponse "Not Found")]
     ++ [Print MsgNoParksData]).
Proof.
  apply (main_fetch_none_stops filled_config (world_requesting (Ok response_not_found))).
  - vm_compute. discriminate.
  - vm_compute. discriminate.
  - reflexivity.
  - reflexivity.
Defined.





(** X24.  [main] never writes a table without rows: every update of the
    worksheet that [main] makes, in any world and under any configuration,
    is at cell A1 and carries the five-name header followed by at least one
    row, each row five values wide. *)
Theorem main_writes_only_full_tables (cfg : config) (w : world) (i : nat)
    (cell : string) (data : list (list value)) :
  (main cfg w).2 !! i = Some (WorksheetUpdate cell data) →
  cell = "A1" ∧ full_table data.
Proof.
  intros Hi.
  assert (Forall (λ ev, ∀ cell data, ev = WorksheetUpdate cell data →
                                     cell = "A1" ∧ full_table data) (main cfg w).2) as H.
  { apply main_trace.
    - intros; discriminate.
    - eapply Forall_impl; [apply authenticate_google_trace|].
      intros ev [_ Hs] ? ? ->. discriminate.
    - intros _. eapply Forall_impl; [apply fetch_parks_data_trace|].
      intros ev [Hs _] ? ? ->. discriminate.
    - intros parks_data df Hdf He.
      destruct (process_parks_data parks_data) as [r tr] eqn:Hp. cbn in Hdf. subst r.
      apply process_parks_data_ok_any in Hp as [ds ->].
      eapply Forall_impl; [apply write_to_google_sheet_trace|].
      intros ev [_ Hu] c dt Hev. destruct (Hu c dt Hev) as [-> ->]. split; [done|].
      destruct ds as [|d ds]; [discriminate|].
      eexists. split; [reflexivity|]. split; [done|].
      cbn [values]. apply Forall_fmap, Forall_true. intros d'. reflexivity. }
  rewrite Forall_lookup in H. by eapply H.
Qed.

Lemma main_writes_only_full_tables_witness :
  "A1" = "A1" ∧ full_table (data_to_write yellowstone_frame).
Proof.
  apply (main_writes_only_full_tables filled_config
           (world_answering (response_with_parks [VDict yellowstone])) 21).
  vm_compute. reflexivity.
Defined.

(** X25.  Every HTTP request that [main] makes is the GET to the NPS parks
    URL with the configured key and the limit 50, and it is made only after
    authentication has succeeded. *)
Theorem main_http_request (cfg : config) (w : world) (i : nat)
    (url api_key : string) (limit : Z) :
  (main cfg w).2 !! i = Some (HttpGet url api_key limit) →
  url = NPS_API_BASE_URL ∧ api_key = API_KEY cfg ∧ limit = 50
  ∧ (authenticate_google w).1 = Ok tt.
Proof.
  intros Hi.
  assert (Forall (λ ev, is_http_call ev = true →
                        ev = HttpGet NPS_API_BASE_URL (API_KEY cfg) MAX_PARKS
                        ∧ (authenticate_google w).1 = Ok tt) (main cfg w).2) as H.
  { apply main_trace.
    - intros; discriminate.
    - eapply Forall_impl; [apply authenticate_google_trace|].
      intros ev [Hh _] ?. congruence.
    - intros Ha. eapply Forall_impl; [apply fetch_parks_data_trace|].
      intros ev [_ Hh] ?. auto.
    - intros parks_data df _ _.
      eapply Forall_impl; [apply write_to_google_sheet_trace|].
      intros ev [Hh _] ?. congruence. }
  rewrite Forall_lookup in H. destruct (H i _ Hi eq_refl) as [Heq Ha].
  by simplify_eq.
Qed.

Lemma main_http_request_witness :
  NPS_API_BASE_URL = NPS_API_BASE_URL ∧ "k3y" = API_KEY filled_config ∧ 50 = 50
  ∧ (authenticate_google (world_requesting (Ok response_not_found))).1 = Ok tt.
Proof.
  apply (main_http_request filled_config (world_requesting (Ok response_not_found)) 9).
  vm_compute. reflexivity.
Defined.

(** X26.  One record that is not a dict in the fetched list ends the whole
    run: the [AttributeError] raised in the handler of the processing loop
    leaves [main], after the fetch and before any spreadsheet call. *)
Theorem main_malformed_record_raises (cfg : config) (w : world) (ta tf : list event)
    (ds : list (gmap string value)) (park : value) (rest : list value) :
  API_KEY cfg ≠ "YOUR_API_KEY_HERE" →
  SHEET_URL cfg ≠ "YOUR_SHEET_URL_HERE" →
  authenticate_google w = (Ok tt, ta) →
  fetch_parks_data w (API_KEY cfg) MAX_PARKS
  = (Ok (VList ((VDict <$> ds) ++ park :: rest)), tf) →
  is_dict park = false →
  main cfg w
  = (Raise (AttributeError (type_name park) "get"),
     banner ++ ta ++ tf ++ [Print MsgProcessing]).
Proof.
  intros Hk Hs Ha Hf Hp. rewrite main_configured by done.
  py_simpl. rewrite Ha.
  cbn -[fetch_parks_data process_parks_data]. rewrite Hf.
  cbn -[fetch_parks_data process_parks_data].
  rewrite (bool_decide_eq_false_2 (Z.of_nat _ = 0))
    by (rewrite length_app; cbn; lia).
  rewrite (process_parks_data_not_dict ds park rest Hp). cbn.
  by rewrite app_nil_r.
Qed.

Lemma main_malformed_record_raises_witness :
  ∃ tr, main filled_config
          (world_requesting
             (Ok (response_with_parks [record_A; VStr "not-a-record"; record_B])))
        = (Raise (AttributeError "str" "get"), tr).
Proof.
  eexists.
  eapply (main_malformed_record_raises filled_config
            (world_requesting
               (Ok (response_with_parks [record_A; VStr "not-a-record"; record_B])))
            _ _ [{[ "fullName" := VStr "A" ]}] (VStr "not-a-record") [record_B]);
    first [reflexivity | vm_compute; discriminate].
Defined.
